(** * mloggers: the abstract [Logger] and its stream redirection

    A shallow embedding of [src/mloggers/logger.py]: the level filter of
    [Logger.log], [set_level], the convenience wrappers, [__call__],
    [redirect_streams] / [reset_streams] and [_RedirectStream.write],
    followed by the properties of the specification that concern them. *)

From Stdlib Require Import ZArith NArith List String Ascii Bool Lia.
Import ListNotations.
Local Open Scope Z_scope.

Set Warnings "-register-all".

(** ** Python values *)

(** A Python [str] is a sequence of Unicode code points. *)
Definition codepoint := N.
Definition str := list codepoint.

(** ASCII literals, for writing examples. *)
Fixpoint lit (s : string) : str :=
  match s with
  | EmptyString => []
  | String c s' => N_of_ascii c :: lit s'
  end.

(** The exceptions that the modelled code can raise or let through. *)
Inductive Exn :=
| TypeError
| AttributeError
| OtherError (name : string).

Inductive Result (A : Type) :=
| Return (a : A)
| Raise (e : Exn).
Arguments Return {A} a.
Arguments Raise {A} e.

Definition rbind {A B} (r : Result A) (k : A -> Result B) : Result B :=
  match r with
  | Return a => k a
  | Raise e => Raise e
  end.

(** What looking up the attribute [__str__] on an object gives:
    [getattr] raises [AttributeError] when the lookup fails, and
    otherwise yields an attribute that is callable or not. *)
Inductive StrAttr :=
| AttrMissing
| AttrNotCallable
| AttrCallable.

(** What one lookup of [__str__] does on an object whose class takes
    attribute access into its own hands: it returns an attribute,
    callable or not, or it raises. *)
Inductive Lookup :=
| LookupReturns (is_callable : bool)
| LookupRaises (e : Exn).

(** ** The level registry

    [mloggers/_log_levels.py] is not part of the sources at hand; the code
    only reads [LogLevel.X.value['level']] and the four members it names. *)
Class LogLevels := {
  LogLevel : Type;
  level_value : LogLevel -> Z;      (* [L.value['level']] *)
  DEBUG : LogLevel;
  INFO : LogLevel;
  WARN : LogLevel;
  ERROR : LogLevel
}.

Section Values.
Context {LL : LogLevels}.

(** The values that reach [log] as [message], [level] or extra
    arguments.  [PyObject] is any other object, described by what the
    shape check of [log] can observe of it.  [PyDynamic] is an object
    whose class answers attribute access itself ([__getattribute__],
    [__getattr__], a property): [first] is what the first lookup of
    [__str__] on it does and [later] what the next one does, which need
    not be the same; [printable] is whether [str] succeeds on it, which
    goes through its type and not through these lookups. *)
Inductive PyValue :=
| PyNone
| PyBool (b : bool)
| PyInt (z : Z)
| PyStr (s : str)
| PyDict (items : list (str * PyValue))
| PyLevel (l : LogLevel)
| PyObject (type_name : string) (str_attr : StrAttr)
| PyDynamic (type_name : string) (printable : bool) (first later : Lookup).

(** [isinstance(v, dict)] *)
Definition isinstance_dict (v : PyValue) : bool :=
  match v with PyDict _ => true | _ => false end.

(** [isinstance(v, LogLevel)] *)
Definition isinstance_LogLevel (v : PyValue) : bool :=
  match v with PyLevel _ => true | _ => false end.

(** The attribute [__str__] that the type of a value carries: every
    built-in type inherits a callable one from [object]. *)
Definition lookup_str (v : PyValue) : StrAttr :=
  match v with
  | PyObject _ a => a
  | PyDynamic _ printable _ _ =>
      if printable then AttrCallable else AttrNotCallable
  | _ => AttrCallable
  end.

Definition run_lookup (l : Lookup) : Result StrAttr :=
  match l with
  | LookupReturns true => Return AttrCallable
  | LookupReturns false => Return AttrNotCallable
  | LookupRaises e => Raise e
  end.

(** [getattr(v, "__str__")], as the lookup number [n] made on [v],
    counting from 0: each call looks the attribute up anew. *)
Definition getattr_str (n : nat) (v : PyValue) : Result StrAttr :=
  match v with
  | PyDynamic _ _ first later =>
      run_lookup match n with O => first | S _ => later end
  | _ =>
      match lookup_str v with
      | AttrMissing => Raise AttributeError
      | a => Return a
      end
  end.

(** [hasattr(v, "__str__")], the first lookup made on [v]: [False]
    when the lookup raises [AttributeError]; any other exception of the
    lookup passes through. *)
Definition hasattr_str (v : PyValue) : Result bool :=
  match getattr_str 0 v with
  | Return _ => Return true
  | Raise AttributeError => Return false
  | Raise e => Raise e
  end.

(** [callable(a)] *)
Definition callable (a : StrAttr) : bool :=
  match a with AttrCallable => true | _ => false end.

(** Whether [str(v)] succeeds: the value carries a callable [__str__]. *)
Definition stringifiable (v : PyValue) : bool :=
  match lookup_str v with AttrCallable => true | _ => false end.

(** ** [Logger]: state, [__init__], [set_level] *)

Record Logger := mkLogger { _log_level : Z }.

(** [DEFAULT_IMPORTANCE = LogLevel.INFO.value['level']] *)
Definition DEFAULT_IMPORTANCE : Z := level_value INFO.

(** An argument of type [LogLevel | int]. *)
Inductive LevelOrInt :=
| OfLevel (l : LogLevel)
| OfInt (z : Z).

(** [level.value['level'] if isinstance(level, LogLevel) else level] *)
Definition importance_of (level : LevelOrInt) : Z :=
  match level with
  | OfLevel l => level_value l
  | OfInt z => z
  end.

Definition Logger_init (default_level : LevelOrInt) : Logger :=
  mkLogger (importance_of default_level).

(** [__init__] with its default argument [LogLevel.INFO]. *)
Definition Logger_new : Logger := Logger_init (OfLevel INFO).

Definition set_level (self : Logger) (level : LevelOrInt) : Logger :=
  mkLogger (importance_of level).

(** ** The body of [Logger.log] *)

(** The condition of the shape check, a chain of [and] evaluated left
    to right, each operand only when the ones before it are true. *)
Definition shape_check_fires (message : PyValue) : Result bool :=
  if negb (isinstance_dict message) then
    rbind (hasattr_str message) (fun has =>
      if negb has then
        rbind (getattr_str 1 message) (fun a => Return (negb (callable a)))
      else Return false)
  else Return false.

(** The level filter.  [level.value['level']] is read only under
    [isinstance(level, LogLevel)], the first operand of its [and]. *)
Definition level_filter (self : Logger) (level : PyValue) : bool :=
  if match level with
     | PyLevel l => level_value l <? _log_level self
     | _ => false
     end
  then false
  else if negb (isinstance_LogLevel level)
          && (DEFAULT_IMPORTANCE <? _log_level self)
  then false
  else true.

Definition Logger_log (self : Logger) (message level : PyValue)
  : Result PyValue :=
  rbind (shape_check_fires message) (fun fires =>
    if fires then Raise TypeError
    else Return (PyBool (level_filter self level))).

(** The truth value of what [log] returns. *)
Definition truthy (v : PyValue) : bool :=
  match v with
  | PyNone => false
  | PyBool b => b
  | PyInt z => negb (z =? 0)
  | PyStr s => match s with [] => false | _ => true end
  | PyDict d => match d with [] => false | _ => true end
  | PyLevel _ => true
  | PyObject _ _ => true
  | PyDynamic _ _ _ _ => true
  end.

(** The two signals of the filter. *)
Definition SUPPRESSED : PyValue := PyBool false.
Definition HANDED_OFF : PyValue := PyBool true.

(** The messages on which the shape check itself completes: mappings,
    and values on which looking up [__str__] succeeds. *)
Definition shape_ok (message : PyValue) : bool :=
  isinstance_dict message
  || match hasattr_str message with Return true => true | _ => false end.

(** The values on which every lookup of [__str__] does the same and
    raises nothing but [AttributeError]: all but the objects with
    attribute access of their own that changes or fails otherwise. *)
Definition steady_lookup (v : PyValue) : bool :=
  match v with
  | PyDynamic _ _ (LookupReturns c) (LookupReturns c') => Bool.eqb c c'
  | PyDynamic _ _ (LookupRaises AttributeError) (LookupRaises AttributeError) =>
      true
  | PyDynamic _ _ _ _ => false
  | _ => true
  end.

End Values.

(** ** Text: [str.rstrip] *)

(** [str.isspace] on one code point: the white space of Unicode. *)
Definition isspace (c : codepoint) : bool :=
  (((9 <=? c) && (c <=? 13)) || ((28 <=? c) && (c <=? 32))
   || (c =? 133) || (c =? 160) || (c =? 5760)
   || ((8192 <=? c) && (c <=? 8202))
   || (c =? 8232) || (c =? 8233) || (c =? 8239) || (c =? 8287)
   || (c =? 12288))%N.

(** [s.rstrip()]: [s] without its trailing white space. *)
Fixpoint rstrip (s : str) : str :=
  match s with
  | [] => []
  | c :: s' =>
      match rstrip s' with
      | [] => if isspace c then [] else [c]
      | t => c :: t
      end
  end.

(** [if message:] on a [str] *)
Definition nonempty (s : str) : bool :=
  match s with [] => false | _ => true end.

Definition NEWLINE : codepoint := 10%N.

(** What the specification asks of the adapter instead: a single
    trailing line terminator removed, the rest of the chunk kept. *)
Definition strip_one_terminator (s : str) : str :=
  match rev s with
  | c :: r => if (c =? NEWLINE)%N then rev r else s
  | [] => s
  end.

(** ** The process: streams, the warnings module, and running code *)

(** A logger object, by identity. *)
Definition LoggerRef := nat.

Section Process.
Context {LL : LogLevels}.

(** A file-like object: a real stream of the host, known by its
    descriptor, or a [_RedirectStream] with its three fields. *)
Inductive Stream :=
| RawStream (fd : nat)
| RedirectStream (_logger : LoggerRef) (_level : LogLevel) (_stream : Stream).

(** [sys.__stdout__] and [sys.__stderr__]: the handles the interpreter
    opened when the process started. *)
Definition sys___stdout__ : Stream := RawStream 1.
Definition sys___stderr__ : Stream := RawStream 2.

(** What reaches a real stream. *)
Inductive IOEvent :=
| Wrote (fd : nat) (text : str)
| Flushed (fd : nat).

(** The warnings filter: [warnings.filters] holds entries, the first
    that matches a warning decides; none matching, the default action. *)
Inductive Action :=
| ActDefault | ActError | ActIgnore | ActAlways | ActModule | ActOnce.

Record WarnFilter := mkFilter { wf_action : Action; wf_category : string }.

(** [warnings.showwarning]: a hook of the host, or the lambda that
    [redirect_streams] installs for a logger. *)
Inductive Hook :=
| HostHook (id : nat)
| ForwardToWarning (self : LoggerRef).

Record World := mkWorld {
  sys_stdout : Stream;
  sys_stderr : Stream;
  warnings_filters : list WarnFilter;
  warnings_showwarning : Hook;
  io : list IOEvent                      (* oldest first *)
}.

(** The arguments of a call, positional and by keyword. *)
Record CallArgs := mkArgs {
  positional : list PyValue;
  keywords : list (string * PyValue)
}.

(** A call [self.log(...)] made by the code modelled here. *)
Record LogCall := mkCall { callee : LoggerRef; passed : CallArgs }.

(** The run of a piece of code from a world: how it ended, the world
    it left (also when it raised), and the calls to [log] it made. *)
Record Run (A : Type) := mkRun {
  outcome : Result A;
  final : World;
  log_calls : list LogCall
}.
Arguments mkRun {A}.
Arguments outcome {A}.
Arguments final {A}.
Arguments log_calls {A}.

Definition M (A : Type) := World -> Run A.

Definition ret {A} (a : A) : M A := fun w => mkRun (Return a) w [].

Definition bind {A B} (m : M A) (k : A -> M B) : M B := fun w =>
  let r := m w in
  match outcome r with
  | Return a =>
      let r' := k a (final r) in
      mkRun (outcome r') (final r') (log_calls r ++ log_calls r')
  | Raise e => mkRun (Raise e) (final r) (log_calls r)
  end.

Notation "x <- c1 ;; c2" := (bind c1 (fun x => c2))
  (at level 61, c1 at next level, right associativity).
Notation "c1 ;; c2" := (bind c1 (fun _ => c2))
  (at level 61, right associativity).

Definition get {A} (f : World -> A) : M A := fun w => mkRun (Return (f w)) w [].
Definition modify (f : World -> World) : M unit := fun w => mkRun (Return tt) (f w) [].

Definition set_sys_stdout (s : Stream) (w : World) : World :=
  mkWorld s (sys_stderr w) (warnings_filters w) (warnings_showwarning w) (io w).
Definition set_sys_stderr (s : Stream) (w : World) : World :=
  mkWorld (sys_stdout w) s (warnings_filters w) (warnings_showwarning w) (io w).
Definition set_filters (fs : list WarnFilter) (w : World) : World :=
  mkWorld (sys_stdout w) (sys_stderr w) fs (warnings_showwarning w) (io w).
Definition set_showwarning (h : Hook) (w : World) : World :=
  mkWorld (sys_stdout w) (sys_stderr w) (warnings_filters w) h (io w).
Definition emit (e : IOEvent) (w : World) : World :=
  mkWorld (sys_stdout w) (sys_stderr w) (warnings_filters w)
          (warnings_showwarning w) (io w ++ [e]).

(** *** The warnings module *)

Definition action_eqb (a b : Action) : bool :=
  match a, b with
  | ActDefault, ActDefault | ActError, ActError | ActIgnore, ActIgnore
  | ActAlways, ActAlways | ActModule, ActModule | ActOnce, ActOnce => true
  | _, _ => false
  end.

Definition filter_eqb (f g : WarnFilter) : bool :=
  action_eqb (wf_action f) (wf_action g)
  && String.eqb (wf_category f) (wf_category g).

(** [list.remove]: the first equal entry goes, if there is one. *)
Fixpoint remove_first (f : WarnFilter) (fs : list WarnFilter) : list WarnFilter :=
  match fs with
  | [] => []
  | g :: fs' => if filter_eqb f g then fs' else g :: remove_first f fs'
  end.

(** [warnings.filterwarnings(action)]: an entry for every [Warning],
    put in front of the others. *)
Definition filterwarnings (a : Action) : M unit :=
  let item := mkFilter a "Warning" in
  modify (fun w => set_filters (item :: remove_first item (warnings_filters w)) w).

(** [warnings.resetwarnings()]: the filter list is emptied. *)
Definition resetwarnings : M unit := modify (set_filters []).

(** Whether a filter entry applies to a warning of a category, given
    the subclass relation of the warning classes. *)
Definition applies (issubclass : string -> string -> bool)
           (category : string) (f : WarnFilter) : bool :=
  issubclass category (wf_category f).

(** The action taken for a warning: the first entry that applies, and
    [warnings.defaultaction], which is ["default"], when none does. *)
Definition action_for (issubclass : string -> string -> bool)
           (fs : list WarnFilter) (category : string) : Action :=
  match find (applies issubclass category) fs with
  | Some f => wf_action f
  | None => ActDefault
  end.

(** *** The host

    What the module meets at run time and does not define: the [log]
    of the concrete class of each logger (the base class leaves [log]
    abstract), [warnings.warn] of the standard library, and the hook
    found in [warnings.showwarning] when the module was imported. *)
Class Host := {
  dispatch_log : LoggerRef -> CallArgs -> World -> Result PyValue * World;
  warnings_warn : str -> World -> Result unit * World;
  WARNINGS_DEFAULT : Hook
}.

Context {H : Host}.

(** [self.log] applied to [*args, **kwargs], dispatched to the concrete
    class. *)
Definition call_log (self : LoggerRef) (args : list PyValue)
           (kwargs : list (string * PyValue)) : M PyValue := fun w =>
  let ca := mkArgs args kwargs in
  let (r, w') := dispatch_log self ca w in
  mkRun r w' [mkCall self ca].

Definition warn_ (text : str) : M unit := fun w =>
  let (r, w') := warnings_warn text w in mkRun r w' [].

(** *** [Logger]: [__call__] and the convenience wrappers *)

Definition _call_impl (self : LoggerRef) (args : list PyValue)
           (kwargs : list (string * PyValue)) : M PyValue :=
  call_log self args kwargs.

Definition __call__ := _call_impl.

Definition info (self : LoggerRef) (message : PyValue) (args : list PyValue)
           (kwargs : list (string * PyValue)) : M PyValue :=
  call_log self (message :: PyLevel INFO :: args) kwargs ;;
  ret PyNone.

Definition warn (self : LoggerRef) (message : PyValue) (args : list PyValue)
           (kwargs : list (string * PyValue)) : M PyValue :=
  call_log self (message :: PyLevel WARN :: args) kwargs ;;
  ret PyNone.

Definition warning := warn.

Definition error (self : LoggerRef) (message : PyValue) (args : list PyValue)
           (kwargs : list (string * PyValue)) : M PyValue :=
  call_log self (message :: PyLevel ERROR :: args) kwargs ;;
  ret PyNone.

Definition debug (self : LoggerRef) (message : PyValue) (args : list PyValue)
           (kwargs : list (string * PyValue)) : M PyValue :=
  call_log self (message :: PyLevel DEBUG :: args) kwargs ;;
  ret PyNone.

(** A wrapper calls [log] as a statement and falls off its end: the
    result of the call is dropped, an exception passes through. *)
Definition discard (r : Result PyValue) : Result PyValue :=
  match r with
  | Return _ => Return PyNone
  | Raise e => Raise e
  end.

(** Two runs that leave the same world after the same calls to [log],
    the first returning [None] where the second returns a value. *)
Definition same_but_result (wrapper call : Run PyValue) : Prop :=
  final wrapper = final call
  /\ log_calls wrapper = log_calls call
  /\ outcome wrapper = discard (outcome call).

(** *** [_RedirectStream] *)

(** [flush]: an adapter passes it to the stream it wraps. *)
Fixpoint stream_flush (s : Stream) : M PyValue :=
  match s with
  | RawStream fd => modify (emit (Flushed fd)) ;; ret PyNone
  | RedirectStream _ _ _stream => stream_flush _stream
  end.

(** The real stream that a flush of [s] reaches. *)
Fixpoint underlying_fd (s : Stream) : nat :=
  match s with
  | RawStream fd => fd
  | RedirectStream _ _ _stream => underlying_fd _stream
  end.

(** The forwarding step of [write]:
    [if message: self._logger.log(message, self._level)]. *)
Definition forward (_logger : LoggerRef) (_level : LogLevel)
           (message : str) : M PyValue :=
  if nonempty message
  then call_log _logger [PyStr message; PyLevel _level] []
  else ret PyNone.

(** [_RedirectStream.write], on the fields of [self]. *)
Definition RedirectStream_write (_logger : LoggerRef) (_level : LogLevel)
           (_stream : Stream) (message : str) : M PyValue :=
  custom_stdout <- get sys_stdout ;;
  modify (set_sys_stdout sys___stdout__) ;;
  let message := rstrip message in
  forward _logger _level message ;;
  out <- get sys_stdout ;;
  stream_flush out ;;
  modify (set_sys_stdout custom_stdout) ;;
  ret PyNone.

(** [s.write(text)]: a real stream receives the text, an adapter runs
    its own [write]. *)
Definition stream_write (s : Stream) (text : str) : M PyValue :=
  match s with
  | RawStream fd => modify (emit (Wrote fd text)) ;; ret PyNone
  | RedirectStream lg lv st => RedirectStream_write lg lv st text
  end.

(** [print(text)]: the text, then the line terminator, each written to
    the stream found in [sys.stdout]. *)
Definition print (text : str) : M PyValue :=
  out <- get sys_stdout ;;
  stream_write out text ;;
  stream_write out [NEWLINE] ;;
  ret PyNone.

(** *** [redirect_streams] and [reset_streams] *)

Definition ADVISORY : str := lit
  "Redirecting standard output and error streams to the logger is an experimental feature. This might not work as expected and break the standard output and error streams. Reset the streams with `reset_streams` if needed. As a last resort, restart the kernel.".

Definition redirect_streams (self : LoggerRef) : M PyValue :=
  warn_ ADVISORY ;;
  out <- get sys_stdout ;;
  modify (set_sys_stdout (RedirectStream self INFO out)) ;;
  err <- get sys_stderr ;;
  modify (set_sys_stderr (RedirectStream self ERROR err)) ;;
  filterwarnings ActAlways ;;
  modify (set_showwarning (ForwardToWarning self)) ;;
  ret PyNone.

Definition reset_streams (self : LoggerRef) : M PyValue :=
  modify (set_sys_stdout sys___stdout__) ;;
  modify (set_sys_stderr sys___stderr__) ;;
  resetwarnings ;;
  modify (set_showwarning WARNINGS_DEFAULT) ;;
  ret PyNone.

End Process.

Arguments mkRun {LL A}.
Arguments outcome {LL A}.
Arguments final {LL A}.
Arguments log_calls {LL A}.

(** ** A concrete registry, hosts and worlds, for running the model *)

Inductive StdLevel := L_DEBUG | L_INFO | L_WARN | L_ERROR.

(** Modelled from the spec: the registry of [mloggers/_log_levels.py],
    a closed set of named severities (DEBUG, INFO, WARN, ERROR) with
    distinct integer importances, higher meaning more severe; INFO has
    importance 0, as the docstring of [Logger.__init__] says. *)
#[global] Instance std_levels : LogLevels := {
  LogLevel := StdLevel;
  level_value := fun l =>
    match l with
    | L_DEBUG => -1
    | L_INFO => 0
    | L_WARN => 1
    | L_ERROR => 2
    end;
  DEBUG := L_DEBUG;
  INFO := L_INFO;
  WARN := L_WARN;
  ERROR := L_ERROR
}.

(** A concrete class whose [log(self, message, level=None, *args,
    **kwargs)] returns what the base [log] returns, for a logger in
    state [lg]; [warnings.warn] is silent. *)
Definition base_host (lg : Logger) : Host := {|
  dispatch_log := fun _ ca w =>
    match positional ca with
    | [] => (Raise TypeError, w)
    | [message] => (Logger_log lg message PyNone, w)
    | message :: level :: _ => (Logger_log lg message level, w)
    end;
  warnings_warn := fun _ w => (Return tt, w);
  WARNINGS_DEFAULT := HostHook 0
|}.

(** A concrete class whose [log] fails on its output. *)
Definition failing_host : Host := {|
  dispatch_log := fun _ _ w => (Raise (OtherError "OSError"), w);
  warnings_warn := fun _ w => (Return tt, w);
  WARNINGS_DEFAULT := HostHook 0
|}.

(** A concrete class whose [log] writes the message to the stream found
    in [sys.stdout], when that is a real stream, and returns [None]. *)
Definition console_host : Host := {|
  dispatch_log := fun _ ca w =>
    match positional ca, sys_stdout w with
    | PyStr text :: _, RawStream fd => (Return PyNone, emit (Wrote fd text) w)
    | _, _ => (Return PyNone, w)
    end;
  warnings_warn := fun _ w => (Return tt, w);
  WARNINGS_DEFAULT := HostHook 0
|}.

(** A process in a notebook: standard output and error are streams of
    the front end, not the ones the interpreter started with. *)
Definition notebook_world : World :=
  mkWorld (RawStream 7) (RawStream 8) [mkFilter ActIgnore "DeprecationWarning"]
          (HostHook 3) [].

(** That process after [redirect_streams] of logger 0. *)
Definition redirected_notebook : World :=
  final (redirect_streams (H := console_host) 0%nat notebook_world).

(** The call [log("hello", LogLevel.INFO)] on logger 0. *)
Definition hello_at_info : LogCall :=
  mkCall 0%nat (mkArgs [PyStr (lit "hello"); PyLevel INFO] []).

(** An object whose class sets [__str__ = None]: the attribute is there
    and cannot be called, so [str] fails on it. *)
Definition unprintable {LL : LogLevels} : PyValue :=
  PyObject "Unprintable" AttrNotCallable.

(** An object whose class overrides attribute access so that looking up
    [__str__] raises [AttributeError]. *)
Definition secretive {LL : LogLevels} : PyValue :=
  PyObject "Secretive" AttrMissing.

(** An object whose [__getattribute__] raises [AttributeError] the
    first time [__str__] is asked for and returns [None] from then on. *)
Definition flickering {LL : LogLevels} : PyValue :=
  PyDynamic "Flickering" true (LookupRaises AttributeError) (LookupReturns false).

(** An object whose [__getattribute__] raises [TypeError]. *)
Definition touchy {LL : LogLevels} : PyValue :=
  PyDynamic "Touchy" true (LookupRaises TypeError) (LookupRaises TypeError).

(** An object that computes its attributes on demand, [__str__] among
    them, the same way every time. *)
Definition lazy_record {LL : LogLevels} : PyValue :=
  PyDynamic "LazyRecord" true (LookupReturns true) (LookupReturns true).

(** ** The warning hook installed by [redirect_streams] *)

Section Hooks.
Context {LL : LogLevels} {H : Host}.

(** The builtin [str], which the module calls and does not define. *)
Variable py_str : PyValue -> Result str.

(** An expression that touches no state, as a run. *)
Definition pure_step {A} (r : Result A) : M A := fun w => mkRun r w [].

(** [args[0]] *)
Definition first_positional (args : list PyValue) : Result PyValue :=
  match args with
  | a :: _ => Return a
  | [] => Raise (OtherError "IndexError")
  end.

(** [lambda *args, **kwargs: self.warning(str(args[0]))] *)
Definition showwarning_lambda (self : LoggerRef) (args : list PyValue)
           (kwargs : list (string * PyValue)) : M PyValue :=
  bind (pure_step (first_positional args)) (fun a =>
  bind (pure_step (py_str a)) (fun text =>
  warning self (PyStr text) [] [])).

End Hooks.

(** A warning as the warnings module hands it to the hook: message,
    category, file name and line number, in this order. *)
Definition sample_warning_args : list (@PyValue std_levels) :=
  [PyObject "UserWarning" AttrCallable; PyObject "type" AttrCallable;
   PyStr (lit "job.py"); PyInt 12].

(** A [str] for the examples: the text of a string, a fixed text for
    any other printable value, [TypeError] otherwise. *)
Definition sample_str (v : @PyValue std_levels) : Result str :=
  match v with
  | PyStr s => Return s
  | _ => if stringifiable v then Return (lit "disk almost full")
         else Raise TypeError
  end.

(** The subclass relation of the warning classes, as far as the
    examples need it: every class is below itself and below [Warning]. *)
Definition sample_issubclass (c d : string) : bool :=
  String.eqb c d || String.eqb d "Warning".

(** A host where [warnings.warn] raises, as under a filter that turns
    warnings into errors. *)
Definition strict_host : Host := {|
  dispatch_log := fun _ _ w => (Return PyNone, w);
  warnings_warn := fun _ w => (Raise (OtherError "UserWarning"), w);
  WARNINGS_DEFAULT := HostHook 0
|}.

(** A process whose streams are the ones it started with. *)
Definition plain_world : World :=
  mkWorld sys___stdout__ sys___stderr__ [] (HostHook 0) [].

(** * Properties *)

(** ** The level filter *)

Section FilterFacts.
Context {LL : LogLevels}.

Lemma shape_check_accepts (message : PyValue) :
  shape_ok message = true -> shape_check_fires message = Return false.
Proof.
  unfold shape_ok, shape_check_fires.
  destruct (isinstance_dict message); simpl; [reflexivity|].
  destruct (hasattr_str message) as [[|]|e]; simpl;
    try discriminate; reflexivity.
Qed.

Lemma Logger_log_accepted (self : Logger) (message level : PyValue) :
  shape_ok message = true ->
  Logger_log self message level = Return (PyBool (level_filter self level)).
Proof.
  intros Hok. unfold Logger_log.
  rewrite (shape_check_accepts _ Hok). reflexivity.
Qed.

Lemma level_filter_registered (self : Logger) (l : LogLevel) :
  level_filter self (PyLevel l) = negb (level_value l <? _log_level self).
Proof.
  unfold level_filter. simpl.
  destruct (level_value l <? _log_level self); reflexivity.
Qed.

Lemma level_filter_unregistered (self : Logger) (level : PyValue) :
  isinstance_LogLevel level = false ->
  level_filter self level = negb (DEFAULT_IMPORTANCE <? _log_level self).
Proof.
  unfold level_filter.
  destruct level; simpl; try discriminate; intros _;
    destruct (DEFAULT_IMPORTANCE <? _log_level self); reflexivity.
Qed.

(** C1. For a logger with threshold [t] and a registered level [l],
    the base [log] returns the falsy signal exactly when the importance
    of [l] is strictly below [t] and the truthy signal otherwise; a
    level whose importance equals [t] is handed off, also right after
    [set_level] to that level. *)
Theorem log_filters_registered_level
        (self : Logger) (message : PyValue) (l : LogLevel) :
  shape_ok message = true ->
  (Logger_log self message (PyLevel l) = Return SUPPRESSED
     <-> level_value l < _log_level self)
  /\ (Logger_log self message (PyLevel l) = Return HANDED_OFF
     <-> _log_level self <= level_value l)
  /\ truthy SUPPRESSED = false /\ truthy HANDED_OFF = true
  /\ (level_value l = _log_level self ->
      Logger_log self message (PyLevel l) = Return HANDED_OFF)
  /\ Logger_log (set_level self (OfLevel l)) message (PyLevel l)
     = Return HANDED_OFF.
Proof.
  intros Hok. rewrite !(Logger_log_accepted _ _ _ Hok).
  rewrite !level_filter_registered. unfold SUPPRESSED, HANDED_OFF. simpl.
  rewrite Z.ltb_irrefl. simpl.
  destruct (Z.ltb_spec (level_value l) (_log_level self)); simpl;
    repeat split; try reflexivity; try congruence; try lia; intros; try lia.
Qed.

(** C2. For a level argument that is not a registered level, the base
    [log] filters with [DEFAULT_IMPORTANCE], the importance of INFO: it
    is suppressed exactly when that importance is strictly below the
    threshold, so such a label fares exactly as INFO does. *)
Theorem log_filters_unregistered_level
        (self : Logger) (message level : PyValue) :
  shape_ok message = true ->
  isinstance_LogLevel level = false ->
  DEFAULT_IMPORTANCE = level_value INFO
  /\ (Logger_log self message level = Return SUPPRESSED
      <-> DEFAULT_IMPORTANCE < _log_level self)
  /\ (Logger_log self message level = Return HANDED_OFF
      <-> _log_level self <= DEFAULT_IMPORTANCE)
  /\ Logger_log self message level = Logger_log self message (PyLevel INFO).
Proof.
  intros Hok Hun. rewrite !(Logger_log_accepted _ _ _ Hok).
  rewrite (level_filter_unregistered _ _ Hun), level_filter_registered.
  unfold SUPPRESSED, HANDED_OFF, DEFAULT_IMPORTANCE.
  destruct (Z.ltb_spec (level_value INFO) (_log_level self)); simpl;
    repeat split; try reflexivity; try congruence; try lia; intros; try lia.
Qed.

(** C8. [set_level] replaces the threshold: by the importance of a
    registered level, by the integer itself for a raw integer; the
    logger has no other state, and the filter then runs against the new
    threshold. *)
Theorem set_level_replaces_threshold (self : Logger) :
  (forall l, _log_level (set_level self (OfLevel l)) = level_value l)
  /\ (forall z, _log_level (set_level self (OfInt z)) = z)
  /\ (forall level, set_level self level = mkLogger (importance_of level))
  /\ (forall level message l,
        Logger_log (set_level self level) message (PyLevel l)
        = Logger_log (mkLogger (importance_of level)) message (PyLevel l))
  /\ (forall level l,
        level_filter (set_level self level) (PyLevel l)
        = negb (level_value l <? importance_of level))
  /\ (forall level other,
        isinstance_LogLevel other = false ->
        level_filter (set_level self level) other
        = negb (DEFAULT_IMPORTANCE <? importance_of level)).
Proof.
  split; [reflexivity|]. split; [reflexivity|]. split; [reflexivity|].
  split; [reflexivity|]. split.
  - intros level l. apply level_filter_registered.
  - intros level other Hun. now apply level_filter_unregistered.
Qed.

(** C10, as amended. On every message whose lookups of [__str__] all
    do the same and raise nothing but [AttributeError] (every value of a
    built-in type, every object with plain attribute access), the
    condition of the shape check never holds and [log] never raises
    [TypeError]; a message that is a mapping, or on which the lookup of
    [hasattr] succeeds (callable or not), goes on to the filter.  The
    condition holds exactly for a message that is no mapping, on which
    the lookup of [hasattr] raises [AttributeError] and the lookup of
    [getattr] after it returns an attribute that cannot be called. *)
Theorem shape_check_fires_only_on_changing_lookup
        (self : Logger) (message level : PyValue) :
  (shape_check_fires message = Return true
   <-> isinstance_dict message = false
       /\ getattr_str 0 message = Raise AttributeError
       /\ getattr_str 1 message = Return AttrNotCallable)
  /\ (steady_lookup message = true ->
      shape_check_fires message <> Return true
      /\ Logger_log self message level <> Raise TypeError)
  /\ (shape_ok message = true ->
      Logger_log self message level
      = Return (PyBool (level_filter self level))).
Proof.
  split; [|split].
  - unfold shape_check_fires, hasattr_str.
    destruct message as [| | | | | |n a|n p f l];
      [| | | | | |destruct a
       |destruct f as [[|]|[| |nm]], l as [[|]|[| |nm']]];
      simpl;
      (split;
       [ intros Hf; first [discriminate Hf | repeat split; reflexivity]
       | intros (H0 & H1 & H2);
         first [discriminate H0 | discriminate H1 | discriminate H2
               | reflexivity] ]).
  - intros Hsteady. unfold Logger_log, shape_check_fires, hasattr_str.
    destruct message as [| | | | | |n a|n p f l];
      [| | | | | |destruct a
       |destruct f as [[|]|[| |nm]], l as [[|]|[| |nm']]];
      simpl in *; try discriminate Hsteady; split; discriminate.
  - apply Logger_log_accepted.
Qed.

(** C5, on the code. A message that is no mapping and has no string
    conversion is not refused with [TypeError]: with a [__str__] that
    cannot be called it passes the check and is filtered like any other,
    and with a [__str__] that cannot be looked up the check itself
    fails with [AttributeError]. *)
Theorem log_does_not_refuse_unprintable :
  isinstance_dict unprintable = false
  /\ stringifiable unprintable = false
  /\ Logger_log Logger_new unprintable PyNone = Return HANDED_OFF
  /\ isinstance_dict secretive = false
  /\ Logger_log Logger_new secretive PyNone = Raise AttributeError.
Proof.
  repeat split.
  unfold Logger_log, Logger_new, Logger_init, level_filter; simpl.
  unfold DEFAULT_IMPORTANCE. rewrite Z.ltb_irrefl. reflexivity.
Qed.

End FilterFacts.

(** ** Trailing white space *)

Lemma rstrip_trailing_space (s : str) (c : codepoint) :
  isspace c = true -> rstrip (s ++ [c]) = rstrip s.
Proof.
  intros Hc. induction s as [|a s IH]; simpl.
  - now rewrite Hc.
  - now rewrite IH.
Qed.

Lemma rstrip_keeps (s : str) (c : codepoint) :
  isspace c = false -> rstrip (s ++ [c]) = s ++ [c].
Proof.
  intros Hc. induction s as [|a s IH]; simpl.
  - now rewrite Hc.
  - rewrite IH. destruct (s ++ [c]) eqn:E; [|reflexivity].
    now destruct s.
Qed.

(** [rstrip] removes a suffix of white space, and all of it. *)
Lemma rstrip_spec (s : str) :
  exists t, s = rstrip s ++ t
            /\ forallb isspace t = true
            /\ (forall u c, rstrip s = u ++ [c] -> isspace c = false).
Proof.
  induction s as [|a s (t & Hs & Ht & Hlast)]; simpl.
  - exists []. repeat split. intros [|] ? ?; discriminate.
  - destruct (rstrip s) as [|b r] eqn:E.
    + destruct (isspace a) eqn:Ha.
      * exists (a :: t). simpl in *. rewrite Ha, Ht. repeat split.
        { now rewrite Hs at 1. }
        intros [|] ? ?; discriminate.
      * exists t. simpl in *. repeat split; trivial.
        { now rewrite Hs at 1. }
        intros [|x u] c Hc; simpl in Hc.
        -- now inversion Hc; subst.
        -- inversion Hc. now destruct u.
    + exists t. repeat split; trivial.
      * simpl. now rewrite Hs at 1.
      * intros [|x u] c Hc; simpl in Hc; [discriminate|].
        inversion Hc. eapply Hlast. eassumption.
Qed.

(** ** Running the process *)

Section ProcessFacts.
Context {LL : LogLevels} {H : Host}.

Lemma stream_flush_run (s : Stream) (w : World) :
  stream_flush s w = mkRun (Return PyNone) (emit (Flushed (underlying_fd s)) w) [].
Proof. induction s; simpl; [reflexivity | assumption]. Qed.

Lemma call_log_run (self : LoggerRef) args kwargs (w : World) :
  call_log self args kwargs w
  = mkRun (fst (dispatch_log self (mkArgs args kwargs) w))
          (snd (dispatch_log self (mkArgs args kwargs) w))
          [mkCall self (mkArgs args kwargs)].
Proof.
  unfold call_log. now destruct (dispatch_log self (mkArgs args kwargs) w).
Qed.

(** The calls that the forwarding step makes: one, with the text and
    the bound level, when there is text, and none otherwise. *)
Lemma forward_log_calls lg lv (m : str) (w : World) :
  log_calls (forward lg lv m w)
  = if nonempty m then [mkCall lg (mkArgs [PyStr m; PyLevel lv] [])] else [].
Proof.
  unfold forward. destruct (nonempty m); [|reflexivity].
  now rewrite call_log_run.
Qed.

(** [write], by the way its forwarding step ends. *)
Lemma RedirectStream_write_run lg lv st (message : str) (w : World) :
  let fwd := forward lg lv (rstrip message) (set_sys_stdout sys___stdout__ w) in
  RedirectStream_write lg lv st message w
  = match outcome fwd with
    | Return _ =>
        mkRun (Return PyNone)
              (set_sys_stdout (sys_stdout w)
                 (emit (Flushed (underlying_fd (sys_stdout (final fwd))))
                       (final fwd)))
              (log_calls fwd)
    | Raise e => mkRun (Raise e) (final fwd) (log_calls fwd)
    end.
Proof.
  intros fwd. unfold RedirectStream_write, bind, get, modify. simpl.
  fold fwd. destruct (outcome fwd); simpl; [|reflexivity].
  rewrite stream_flush_run. simpl. now rewrite !app_nil_r.
Qed.

(** What [write] forwards: the chunk without its trailing white
    space, once, at the bound level, and nothing when no text is left;
    this holds however the call to [log] ends. *)
Lemma write_forwards_rstrip_once lg lv st (message : str) (w : World) :
  log_calls (RedirectStream_write lg lv st message w)
  = if nonempty (rstrip message)
    then [mkCall lg (mkArgs [PyStr (rstrip message); PyLevel lv] [])]
    else [].
Proof.
  rewrite RedirectStream_write_run. cbv zeta.
  destruct (outcome (forward lg lv (rstrip message) _)); simpl;
    apply forward_log_calls.
Qed.

(** When [log] raises, so does [write], in the world that [log] left:
    nothing is flushed and [sys.stdout] is not put back. *)
Lemma write_when_log_raises lg lv st (message : str) (w : World) (e : Exn) :
  let fwd := forward lg lv (rstrip message) (set_sys_stdout sys___stdout__ w) in
  outcome fwd = Raise e ->
  outcome (RedirectStream_write lg lv st message w) = Raise e
  /\ final (RedirectStream_write lg lv st message w) = final fwd.
Proof.
  intros fwd He. rewrite RedirectStream_write_run. fold fwd.
  rewrite He. now split.
Qed.


(** After [redirect_streams] has returned, [print] of a text: the
    adapter in [sys.stdout] receives the text and then the terminator;
    the text is forwarded once at INFO, the terminator not at all, and
    nothing is written to a stream by [print] itself. *)
Lemma print_after_redirect (self : LoggerRef) (text : str) (w w' w2 : World)
      (v : PyValue) :
  outcome (redirect_streams self w) = Return PyNone ->
  final (redirect_streams self w) = w' ->
  rstrip text = text -> nonempty text = true ->
  dispatch_log self (mkArgs [PyStr text; PyLevel INFO] [])
               (set_sys_stdout sys___stdout__ w') = (Return v, w2) ->
  let r := print text w' in
  outcome r = Return PyNone
  /\ log_calls r = [mkCall self (mkArgs [PyStr text; PyLevel INFO] [])]
  /\ io (final r)
     = io w2 ++ [Flushed (underlying_fd (sys_stdout w2));
                 Flushed (underlying_fd sys___stdout__)]
  /\ sys_stdout (final r) = sys_stdout w'.
Proof.
  intros Hret Hw' Htext Hne Hlog.
  assert (Hout : exists s0, sys_stdout w' = RedirectStream self INFO s0).
  { revert Hret Hw'. unfold redirect_streams, bind, warn_.
    destruct (warnings_warn ADVISORY w) as [[[]|e] w1]; simpl.
    - intros _ <-. simpl. eauto.
    - discriminate. }
  destruct Hout as [s0 Hs0].
  assert (Hfwd : forward self INFO text (set_sys_stdout sys___stdout__ w')
                 = mkRun (Return v) w2
                         [mkCall self (mkArgs [PyStr text; PyLevel INFO] [])]).
  { unfold forward. now rewrite Hne, call_log_run, Hlog. }
  pose proof (RedirectStream_write_run self INFO s0 text w') as E1.
  cbv zeta in E1. rewrite Htext, Hfwd in E1. simpl in E1.
  unfold print, bind, get. cbn -[RedirectStream_write].
  rewrite Hs0. cbn -[RedirectStream_write].
  rewrite E1. cbn -[RedirectStream_write].
  rewrite RedirectStream_write_run. simpl.
  rewrite Hs0. repeat split. now rewrite <- app_assoc.
Qed.

(** C6, as amended. Each wrapper makes the one call
    [log(message, LEVEL, *extra)] with its fixed level, leaves the world
    that call leaves and lets through what it raises, and returns
    [None] in place of the result of the call; [warning] is [warn]. *)
Theorem wrappers_call_log_and_drop_result
        (self : LoggerRef) (message : PyValue) (args : list PyValue)
        (kwargs : list (string * PyValue)) (w : World) :
  same_but_result (info self message args kwargs w)
                  (call_log self (message :: PyLevel INFO :: args) kwargs w)
  /\ same_but_result (warn self message args kwargs w)
                  (call_log self (message :: PyLevel WARN :: args) kwargs w)
  /\ same_but_result (error self message args kwargs w)
                  (call_log self (message :: PyLevel ERROR :: args) kwargs w)
  /\ same_but_result (debug self message args kwargs w)
                  (call_log self (message :: PyLevel DEBUG :: args) kwargs w)
  /\ warning = warn.
Proof.
  unfold same_but_result, info, warn, error, debug, warning, bind.
  rewrite !call_log_run. simpl.
  repeat split;
    match goal with
    | |- context [fst (dispatch_log ?s ?a ?w)] =>
        destruct (dispatch_log s a w) as [[?|?] ?]; simpl;
        rewrite ?app_nil_r; reflexivity
    end.
Qed.

(** C9. Calling the logger is calling its [log] with the same
    arguments: the same outcome, the same world left, the same single
    dispatch to the [log] of the concrete class. *)
Theorem call_is_log (self : LoggerRef) (args : list PyValue)
        (kwargs : list (string * PyValue)) (w : World) :
  __call__ self args kwargs w = call_log self args kwargs w
  /\ outcome (__call__ self args kwargs w)
     = fst (dispatch_log self (mkArgs args kwargs) w)
  /\ final (__call__ self args kwargs w)
     = snd (dispatch_log self (mkArgs args kwargs) w)
  /\ log_calls (__call__ self args kwargs w)
     = [mkCall self (mkArgs args kwargs)].
Proof.
  unfold __call__, _call_impl. rewrite call_log_run. repeat split.
Qed.

Lemma reset_streams_run (self : LoggerRef) (w : World) :
  reset_streams self w
  = mkRun (Return PyNone)
          (mkWorld sys___stdout__ sys___stderr__ [] WARNINGS_DEFAULT (io w)) [].
Proof. reflexivity. Qed.


End ProcessFacts.

(** ** Concrete runs *)

Lemma log_filters_registered_level_witness :
  shape_ok (PyStr (lit "ready")) = true
  /\ Logger_log (mkLogger 1) (PyStr (lit "ready")) (PyLevel WARN)
     = Return HANDED_OFF.
Proof.
  split; [reflexivity|].
  destruct (log_filters_registered_level
              (mkLogger 1) (PyStr (lit "ready")) WARN eq_refl)
    as (_ & _ & _ & _ & Hboundary & _).
  apply Hboundary. reflexivity.
Defined.

Lemma log_filters_unregistered_level_witness :
  shape_ok (PyStr (lit "ready")) = true
  /\ isinstance_LogLevel (PyStr (lit "critical")) = false
  /\ Logger_log (mkLogger 1) (PyStr (lit "ready")) (PyStr (lit "critical"))
     = Return SUPPRESSED.
Proof.
  split; [reflexivity|]. split; [reflexivity|].
  destruct (log_filters_unregistered_level
              (mkLogger 1) (PyStr (lit "ready")) (PyStr (lit "critical"))
              eq_refl eq_refl)
    as (_ & Hsup & _).
  apply Hsup. reflexivity.
Defined.

Lemma set_level_replaces_threshold_witness :
  isinstance_LogLevel PyNone = false
  /\ level_filter (set_level Logger_new (OfInt 5)) PyNone = false.
Proof.
  split; [reflexivity|].
  destruct (set_level_replaces_threshold Logger_new)
    as (_ & _ & _ & _ & _ & Hother).
  rewrite (Hother (OfInt 5) PyNone eq_refl). reflexivity.
Defined.

Lemma shape_check_fires_only_on_changing_lookup_witness :
  steady_lookup lazy_record = true
  /\ shape_ok lazy_record = true
  /\ Logger_log Logger_new lazy_record (PyLevel ERROR) <> Raise TypeError
  /\ Logger_log Logger_new lazy_record (PyLevel ERROR) = Return HANDED_OFF.
Proof.
  split; [reflexivity|]. split; [reflexivity|].
  destruct (shape_check_fires_only_on_changing_lookup
              Logger_new lazy_record (PyLevel ERROR))
    as (_ & Hsteady & Hfilter).
  split.
  - exact (proj2 (Hsteady eq_refl)).
  - rewrite (Hfilter eq_refl). reflexivity.
Defined.

(** A non-mapping on which looking up [__str__] always raises
    [AttributeError] is not accepted for filtering: [log] ends in
    [AttributeError]. *)
Lemma log_on_hidden_str_is_not_filtered :
  isinstance_dict secretive = false
  /\ Logger_log Logger_new secretive PyNone = Raise AttributeError
  /\ (forall v, Logger_log Logger_new secretive PyNone <> Return v).
Proof.
  split; [reflexivity|]. split; [reflexivity|]. intros v. discriminate.
Defined.

(** C10, as stated, fails: on an object whose lookup of [__str__]
    raises [AttributeError] at [hasattr] and returns [None] at [getattr],
    the condition of the shape check holds and [log] raises [TypeError];
    on an object whose lookup raises [TypeError], [hasattr] lets it
    through and [log] raises [TypeError] as well. *)
Lemma shape_check_fires_on_flickering :
  isinstance_dict flickering = false
  /\ shape_check_fires flickering = Return true
  /\ Logger_log Logger_new flickering PyNone = Raise TypeError
  /\ Logger_log Logger_new touchy PyNone = Raise TypeError.
Proof. repeat split. Defined.



(** C4, on the code. [write] removes all trailing white space, where
    the claim removes one line terminator: trailing blanks of a chunk are
    lost, two terminators go where one should, and a chunk of blanks is
    not forwarded at all. *)
Theorem write_strips_all_trailing_whitespace :
  let written chunk :=
    log_calls (RedirectStream_write (H := console_host) 0%nat INFO (RawStream 7)
                                    chunk redirected_notebook) in
  written (lit "hello  ") = [hello_at_info]
  /\ strip_one_terminator (lit "hello  ") = lit "hello  "
  /\ written (lit "hello" ++ [NEWLINE; NEWLINE]) = [hello_at_info]
  /\ strip_one_terminator (lit "hello" ++ [NEWLINE; NEWLINE])
     = lit "hello" ++ [NEWLINE]
  /\ written (lit "  " ++ [NEWLINE]) = []
  /\ strip_one_terminator (lit "  " ++ [NEWLINE]) = lit "  ".
Proof. cbv zeta. repeat split. Qed.

(** Scenario C of the specification, run: [print("hello")] after
    [redirect_streams] makes the one call [log("hello", INFO)]; the text
    reaches the real standard output through that call, made while
    [sys.stdout] holds [sys.__stdout__], and [print] adds only flushes. *)
Example print_hello_after_redirect :
  let r := print (H := console_host) (lit "hello") redirected_notebook in
  outcome r = Return PyNone
  /\ log_calls r = [hello_at_info]
  /\ io (final r) = [Wrote 1 (lit "hello"); Flushed 1; Flushed 1]
  /\ sys_stdout (final r) = sys_stdout redirected_notebook.
Proof. cbv zeta. repeat split. Qed.

(** C6, as stated, fails: [info] returns [None] where the call to [log]
    it makes returns the truthy signal. *)
Lemma info_drops_the_signal :
  outcome (call_log (H := base_host Logger_new) 0%nat
                    [PyStr (lit "x"); PyLevel INFO] [] notebook_world)
  = Return HANDED_OFF
  /\ outcome (info (H := base_host Logger_new) 0%nat (PyStr (lit "x")) [] []
                   notebook_world)
     = Return PyNone
  /\ truthy (@PyNone std_levels) = false /\ truthy (@HANDED_OFF std_levels) = true.
Proof. repeat split. Defined.

(** Redirecting in a notebook and resetting does not give the notebook
    its streams back: [sys.stdout] then holds [sys.__stdout__]. *)
Example reset_is_not_a_restore :
  sys_stdout notebook_world = RawStream 7
  /\ sys_stdout (final (reset_streams (H := console_host) 0%nat
                                      redirected_notebook))
     = RawStream 1.
Proof. split; reflexivity. Qed.

(** * Further properties of the code *)

(** ** The filter of [Logger.log] *)

Section MoreFilterFacts.
Context {LL : LogLevels}.

(** X1. The filter is monotone: what is handed off stays handed off at
    a level of at least the same importance and under a threshold that
    is no higher, whatever the two messages are. *)
Theorem level_filter_monotone
        (self self' : Logger) (message message' : PyValue) (l l' : LogLevel) :
  shape_ok message = true -> shape_ok message' = true ->
  level_value l <= level_value l' ->
  _log_level self' <= _log_level self ->
  Logger_log self message (PyLevel l) = Return HANDED_OFF ->
  Logger_log self' message' (PyLevel l') = Return HANDED_OFF.
Proof.
  intros Hm Hm' Hl Ht.
  rewrite (Logger_log_accepted _ _ _ Hm), (Logger_log_accepted _ _ _ Hm').
  rewrite !level_filter_registered. unfold HANDED_OFF.
  destruct (Z.ltb_spec (level_value l) (_log_level self)); simpl;
    [discriminate|].
  intros _.
  destruct (Z.ltb_spec (level_value l') (_log_level self')); simpl;
    [lia | reflexivity].
Qed.

(** X2. A logger built with the default argument of [__init__] has the
    importance of INFO as threshold: it never suppresses a message whose
    level is not a registered one, and suppresses a registered level
    exactly when its importance is below that of INFO. *)
Theorem default_logger_filters_below_info (message level : PyValue) :
  shape_ok message = true ->
  Logger_log Logger_new message level
  = Return (PyBool match level with
                   | PyLevel l => negb (level_value l <? level_value INFO)
                   | _ => true
                   end).
Proof.
  intros Hm. rewrite (Logger_log_accepted _ _ _ Hm). f_equal. f_equal.
  destruct level;
    try (rewrite level_filter_unregistered by reflexivity;
         unfold DEFAULT_IMPORTANCE, Logger_new, Logger_init; simpl;
         now rewrite Z.ltb_irrefl).
  now rewrite level_filter_registered.
Qed.

End MoreFilterFacts.

(** ** Chunks of text *)

Lemma rstrip_trailing_spaces (m t : str) :
  forallb isspace t = true -> rstrip (m ++ t) = rstrip m.
Proof.
  induction t as [|c t IH] using rev_ind; intros Ht.
  - now rewrite app_nil_r.
  - rewrite forallb_app in Ht. apply andb_true_iff in Ht as [Ht Hc].
    simpl in Hc. rewrite andb_true_r in Hc.
    rewrite app_assoc, rstrip_trailing_space by exact Hc. now apply IH.
Qed.


Section MoreWriteFacts.
Context {LL : LogLevels} {H : Host}.

(** X3. White space at the end of a chunk makes no difference to
    [write]: the run on a chunk followed by white space is the run on the
    chunk alone. *)
Theorem write_ignores_trailing_whitespace
        lg lv st (m t : str) (w : World) :
  forallb isspace t = true ->
  RedirectStream_write lg lv st (m ++ t) w = RedirectStream_write lg lv st m w.
Proof.
  intros Ht. rewrite !RedirectStream_write_run. cbv zeta.
  now rewrite (rstrip_trailing_spaces m t Ht).
Qed.


(** X5. Every call to [log] that [write] makes goes to the bound logger
    with a text and the bound level; the text is the chunk without a
    suffix of white space, is not empty and does not end in white
    space. *)
Theorem write_forwards_clean_text
        lg lv st (message : str) (w : World) (c : LogCall) :
  In c (log_calls (RedirectStream_write lg lv st message w)) ->
  exists text t,
    c = mkCall lg (mkArgs [PyStr text; PyLevel lv] [])
    /\ message = text ++ t
    /\ forallb isspace t = true
    /\ text <> []
    /\ (forall u ch, text = u ++ [ch] -> isspace ch = false).
Proof.
  rewrite write_forwards_rstrip_once.
  destruct (rstrip_spec message) as (t & Hm & Ht & Hlast).
  destruct (rstrip message) as [|a r] eqn:E; simpl; [intros []|].
  intros [<-|[]]. exists (a :: r), t. repeat split; trivial.
  discriminate.
Qed.


(** X7. [flush] on an adapter, however deeply it wraps, flushes the
    real stream underneath, makes no call to [log] and changes nothing
    else in the process. *)
Theorem flush_reaches_wrapped_stream lg lv (st : Stream) (w : World) :
  stream_flush (RedirectStream lg lv st) w
  = mkRun (Return PyNone)
          (mkWorld (sys_stdout w) (sys_stderr w) (warnings_filters w)
                   (warnings_showwarning w)
                   (io w ++ [Flushed (underlying_fd st)]))
          [].
Proof. simpl. now rewrite stream_flush_run. Qed.

End MoreWriteFacts.

(** ** Redirecting and resetting *)

Section RedirectFacts.
Context {LL : LogLevels} {H : Host}.

Lemma redirect_streams_run (self : LoggerRef) (w : World) :
  redirect_streams self w
  = match warnings_warn ADVISORY w with
    | (Return _, w1) =>
        mkRun (Return PyNone)
              (mkWorld (RedirectStream self INFO (sys_stdout w1))
                       (RedirectStream self ERROR (sys_stderr w1))
                       (mkFilter ActAlways "Warning"
                          :: remove_first (mkFilter ActAlways "Warning")
                                          (warnings_filters w1))
                       (ForwardToWarning self) (io w1))
              []
    | (Raise e, w1) => mkRun (Raise e) w1 []
    end.
Proof.
  unfold redirect_streams, bind, warn_.
  destruct (warnings_warn ADVISORY w) as [[[]|e] w1]; reflexivity.
Qed.


(** X8. When the advisory passes, [redirect_streams] wraps the handles
    then found in [sys.stdout] and [sys.stderr] in adapters bound to the
    logger at INFO and at ERROR, puts the entry that always shows every
    [Warning] in front of the filters, in place of the first earlier copy
    of it, and installs its own hook; it calls no [log] itself. *)
Theorem redirect_streams_installs (self : LoggerRef) (w w1 : World) :
  warnings_warn ADVISORY w = (Return tt, w1) ->
  redirect_streams self w
  = mkRun (Return PyNone)
          (mkWorld (RedirectStream self INFO (sys_stdout w1))
                   (RedirectStream self ERROR (sys_stderr w1))
                   (mkFilter ActAlways "Warning"
                      :: remove_first (mkFilter ActAlways "Warning")
                                      (warnings_filters w1))
                   (ForwardToWarning self) (io w1))
          [].
Proof. intros Hw. now rewrite redirect_streams_run, Hw. Qed.

(** X9. When the advisory itself raises, as under a filter that turns
    warnings into errors, [redirect_streams] ends with that exception
    before it has installed anything: the streams, the filters and the
    hook are those that [warnings.warn] left. *)
Theorem redirect_streams_aborts (self : LoggerRef) (w w1 : World) (e : Exn) :
  warnings_warn ADVISORY w = (Raise e, w1) ->
  redirect_streams self w = mkRun (Raise e) w1 [].
Proof. intros Hw. now rewrite redirect_streams_run, Hw. Qed.

(** X10. After [redirect_streams] every warning whose category is a
    subclass of [Warning] meets the action "always", whatever the
    filters said before. *)
Theorem redirect_streams_shows_every_warning
        (self : LoggerRef) (w : World)
        (issubclass : string -> string -> bool) (category : string) :
  outcome (redirect_streams self w) = Return PyNone ->
  issubclass category "Warning"%string = true ->
  action_for issubclass (warnings_filters (final (redirect_streams self w)))
             category
  = ActAlways.
Proof.
  rewrite redirect_streams_run.
  destruct (warnings_warn ADVISORY w) as [[[]|e] w1]; simpl;
    [|discriminate].
  intros _ Hsub. unfold action_for, applies. simpl. now rewrite Hsub.
Qed.



(** X13. After [reset_streams], [print] reaches the real standard
    output, text and terminator, and no logger: the redirection is
    undone whatever adapters were installed. *)
Theorem print_after_reset (self : LoggerRef) (text : str) (w : World) :
  let w' := final (reset_streams self w) in
  print text w'
  = mkRun (Return PyNone)
          (mkWorld sys___stdout__ sys___stderr__ [] WARNINGS_DEFAULT
                   (io w ++ [Wrote 1%nat text; Wrote 1%nat [NEWLINE]]))
          [].
Proof.
  cbv zeta. rewrite reset_streams_run. unfold print, bind, get. simpl.
  unfold emit. simpl. now rewrite <- app_assoc.
Qed.

(** X14. [redirect_streams] followed by [reset_streams] gives back the
    world in which the redirection started exactly when that world was
    the clean one: original streams, no filter entry and the hook found
    at import; filters and a hook that were in place before are not
    brought back. *)
Theorem redirect_then_reset_round_trip (self : LoggerRef) (w w1 : World) :
  warnings_warn ADVISORY w = (Return tt, w1) ->
  let w'' := final (reset_streams self (final (redirect_streams self w))) in
  w'' = mkWorld sys___stdout__ sys___stderr__ [] WARNINGS_DEFAULT (io w1)
  /\ (w'' = w1 <->
      sys_stdout w1 = sys___stdout__ /\ sys_stderr w1 = sys___stderr__
      /\ warnings_filters w1 = [] /\ warnings_showwarning w1 = WARNINGS_DEFAULT).
Proof.
  intros Hw1. cbv zeta.
  rewrite reset_streams_run, (redirect_streams_installs self w w1 Hw1). simpl.
  split; [reflexivity|]. destruct w1 as [o e f h i]; simpl. split.
  - intros E. inversion E. repeat split.
  - intros (-> & -> & -> & ->). reflexivity.
Qed.

(** X15. Once [log] has raised inside [write] and left [sys.stdout]
    alone, standard output is no longer redirected: the next [print]
    goes to the real standard output and reaches no logger. *)
Theorem print_after_failed_write
        lg lv st (message text : str) (w : World) (e : Exn) :
  nonempty (rstrip message) = true ->
  let at_log := dispatch_log lg (mkArgs [PyStr (rstrip message); PyLevel lv] [])
                             (set_sys_stdout sys___stdout__ w) in
  fst at_log = Raise e ->
  sys_stdout (snd at_log) = sys___stdout__ ->
  let r := RedirectStream_write lg lv st message w in
  outcome r = Raise e
  /\ final r = snd at_log
  /\ print text (final r)
     = mkRun (Return PyNone)
             (emit (Wrote 1%nat [NEWLINE]) (emit (Wrote 1%nat text) (snd at_log)))
             [].
Proof.
  intros Hne at_log He Hs r. subst r.
  rewrite RedirectStream_write_run. cbv zeta.
  unfold forward. rewrite Hne, call_log_run. fold at_log. simpl.
  rewrite He. simpl. split; [reflexivity|]. split; [reflexivity|].
  unfold print, bind, get. simpl. rewrite Hs. reflexivity.
Qed.

End RedirectFacts.

(** ** The warning hook *)

Section HookFacts.
Context {LL : LogLevels} {H : Host}.
Variable py_str : PyValue -> Result str.

(** X16. The hook that [redirect_streams] installs turns a warning
    into the one call [log(str(message), WARN)] on its logger: category,
    file name and line number are dropped, the result is [None], and what
    [log] raises passes through. *)
Theorem showwarning_lambda_forwards_to_warn
        (self : LoggerRef) (message : PyValue) (rest : list PyValue)
        (kwargs : list (string * PyValue)) (text : str) (w : World) :
  py_str message = Return text ->
  let r := showwarning_lambda py_str self (message :: rest) kwargs w in
  let call := dispatch_log self (mkArgs [PyStr text; PyLevel WARN] []) w in
  log_calls r = [mkCall self (mkArgs [PyStr text; PyLevel WARN] [])]
  /\ outcome r = discard (fst call)
  /\ final r = snd call.
Proof.
  intros Hs. cbv zeta.
  unfold showwarning_lambda, pure_step, warning, warn, bind. simpl.
  rewrite Hs. simpl. rewrite call_log_run. simpl.
  destruct (dispatch_log self _ w) as [[x|e] w']; simpl; repeat split.
Qed.

(** X17. The hook fails before it reaches the logger when it is given
    no positional argument ([IndexError]) and when [str] fails on the
    message of the warning: no [log] is called, nothing changes. *)
Theorem showwarning_lambda_fails_early
        (self : LoggerRef) (kwargs : list (string * PyValue)) (w : World) :
  showwarning_lambda py_str self [] kwargs w
  = mkRun (Raise (OtherError "IndexError")) w []
  /\ (forall message rest e,
        py_str message = Raise e ->
        showwarning_lambda py_str self (message :: rest) kwargs w
        = mkRun (Raise e) w []).
Proof.
  split; [reflexivity|]. intros message rest e He.
  unfold showwarning_lambda, pure_step, bind. simpl. now rewrite He.
Qed.

End HookFacts.

(** ** Concrete runs of the further properties *)

Lemma level_filter_monotone_witness :
  Logger_log (mkLogger 1) (PyStr (lit "disk full")) (PyLevel WARN)
  = Return HANDED_OFF
  /\ Logger_log (mkLogger 0) (PyDict []) (PyLevel ERROR) = Return HANDED_OFF.
Proof.
  split; [reflexivity|].
  apply (level_filter_monotone (mkLogger 1) (mkLogger 0)
           (PyStr (lit "disk full")) (PyDict []) WARN ERROR);
    try reflexivity; simpl; lia.
Defined.

Lemma default_logger_filters_below_info_witness :
  shape_ok (PyStr (lit "trace")) = true
  /\ Logger_log Logger_new (PyStr (lit "trace")) (PyLevel DEBUG)
     = Return SUPPRESSED.
Proof.
  split; [reflexivity|].
  rewrite (default_logger_filters_below_info
             (PyStr (lit "trace")) (PyLevel DEBUG) eq_refl).
  reflexivity.
Defined.

Lemma write_ignores_trailing_whitespace_witness :
  forallb isspace (lit "  " ++ [NEWLINE]) = true
  /\ RedirectStream_write (H := console_host) 0%nat INFO (RawStream 7)
       (lit "hello" ++ lit "  " ++ [NEWLINE]) redirected_notebook
     = RedirectStream_write (H := console_host) 0%nat INFO (RawStream 7)
         (lit "hello") redirected_notebook.
Proof.
  split; [reflexivity|].
  apply (write_ignores_trailing_whitespace (H := console_host)). reflexivity.
Defined.


Lemma write_forwards_clean_text_witness :
  In hello_at_info
     (log_calls (RedirectStream_write (H := console_host) 0%nat INFO (RawStream 7)
                   (lit "hello" ++ [NEWLINE]) redirected_notebook))
  /\ exists text t,
       hello_at_info = mkCall 0%nat (mkArgs [PyStr text; PyLevel INFO] [])
       /\ lit "hello" ++ [NEWLINE] = text ++ t
       /\ forallb isspace t = true
       /\ text <> []
       /\ (forall u ch, text = u ++ [ch] -> isspace ch = false).
Proof.
  assert (Hin : In hello_at_info
                   (log_calls (RedirectStream_write (H := console_host) 0%nat INFO
                                 (RawStream 7) (lit "hello" ++ [NEWLINE])
                                 redirected_notebook)))
    by (left; reflexivity).
  split; [exact Hin|].
  exact (write_forwards_clean_text (H := console_host) 0%nat INFO (RawStream 7)
           (lit "hello" ++ [NEWLINE]) redirected_notebook hello_at_info Hin).
Defined.


Lemma redirect_streams_installs_witness :
  warnings_warn (Host := console_host) ADVISORY notebook_world
  = (Return tt, notebook_world)
  /\ sys_stdout redirected_notebook = RedirectStream 0%nat INFO (RawStream 7)
  /\ sys_stderr redirected_notebook = RedirectStream 0%nat ERROR (RawStream 8).
Proof.
  split; [reflexivity|]. unfold redirected_notebook.
  rewrite (redirect_streams_installs (H := console_host) 0%nat
             notebook_world notebook_world eq_refl).
  split; reflexivity.
Defined.

Lemma redirect_streams_aborts_witness :
  warnings_warn (Host := strict_host) ADVISORY notebook_world
  = (Raise (OtherError "UserWarning"), notebook_world)
  /\ final (redirect_streams (H := strict_host) 0%nat notebook_world)
     = notebook_world.
Proof.
  split; [reflexivity|].
  rewrite (redirect_streams_aborts (H := strict_host) 0%nat
             notebook_world notebook_world _ eq_refl).
  reflexivity.
Defined.

Lemma redirect_streams_shows_every_warning_witness :
  action_for sample_issubclass (warnings_filters notebook_world)
             "DeprecationWarning" = ActIgnore
  /\ action_for sample_issubclass (warnings_filters redirected_notebook)
                "DeprecationWarning" = ActAlways.
Proof.
  split; [reflexivity|].
  exact (redirect_streams_shows_every_warning (H := console_host) 0%nat
           notebook_world sample_issubclass "DeprecationWarning"
           eq_refl eq_refl).
Defined.



Lemma redirect_then_reset_round_trip_witness :
  warnings_warn (Host := console_host) ADVISORY plain_world
  = (Return tt, plain_world)
  /\ final (reset_streams (H := console_host) 0%nat
              (final (redirect_streams (H := console_host) 0%nat plain_world)))
     = plain_world.
Proof.
  split; [reflexivity|].
  destruct (redirect_then_reset_round_trip (H := console_host) 0%nat
              plain_world plain_world eq_refl) as (_ & Hiff).
  apply Hiff. repeat split.
Defined.

Lemma print_after_failed_write_witness :
  log_calls (print (H := failing_host) (lit "next")
               (final (RedirectStream_write (H := failing_host) 0%nat INFO
                         (RawStream 7) (lit "hello") redirected_notebook)))
  = [].
Proof.
  destruct (print_after_failed_write (H := failing_host) 0%nat INFO (RawStream 7)
              (lit "hello") (lit "next") redirected_notebook
              (OtherError "OSError") eq_refl eq_refl eq_refl)
    as (_ & _ & Hprint).
  rewrite Hprint. reflexivity.
Defined.

Lemma showwarning_lambda_forwards_to_warn_witness :
  sample_str (PyObject "UserWarning" AttrCallable)
  = Return (lit "disk almost full")
  /\ log_calls (showwarning_lambda (H := console_host) sample_str 0%nat
                  sample_warning_args [] redirected_notebook)
     = [mkCall 0%nat (mkArgs [PyStr (lit "disk almost full"); PyLevel WARN] [])].
Proof.
  split; [reflexivity|].
  destruct (showwarning_lambda_forwards_to_warn (H := console_host) sample_str
              0%nat (PyObject "UserWarning" AttrCallable)
              [PyObject "type" AttrCallable; PyStr (lit "job.py"); PyInt 12]
              [] (lit "disk almost full") redirected_notebook eq_refl)
    as (Hcalls & _).
  exact Hcalls.
Defined.

Lemma showwarning_lambda_fails_early_witness :
  sample_str unprintable = Raise TypeError
  /\ showwarning_lambda (H := console_host) sample_str 0%nat [unprintable] []
       redirected_notebook
     = mkRun (Raise TypeError) redirected_notebook [].
Proof.
  split; [reflexivity|].
  destruct (showwarning_lambda_fails_early (H := console_host) sample_str
              0%nat [] redirected_notebook) as (_ & Hstr).
  exact (Hstr unprintable [] TypeError eq_refl).
Defined.
